(** * Verification of the S3 -> Lambda -> SES notification pipeline

    Two AWS Lambda modules are embedded here:

    - [lambda-email/email_sender.py], the Upload Notifier, and
    - [lambda-notify/lambda_fn.py], the Notification Registrar.

    Both are straight-line Python: dictionary subscripts that may raise,
    one call to an external service, and console or logger output.  The
    embedding is a state-and-exception monad over the observable effects
    (the SDK calls issued and the lines written), with the external
    services supplied as oracles that the theorems quantify over. *)

From Stdlib Require Import ZArith String Ascii List.
From stdpp Require Import base gmap strings list fin_maps.

Local Open Scope string_scope.
Local Open Scope Z_scope.
Local Open Scope list_scope.

(** ** Python values *)

(** The values a Lambda event, an SDK response or an error response is
    made of: what [json.loads] produces.  A float is kept as its binary64
    bit pattern; nothing in the two modules computes with one. *)
#[warnings="-register-all"]
Inductive value : Type :=
  | VNone
  | VBool (b : bool)
  | VInt (n : Z)
  | VFloat (bits : Z)
  | VStr (s : string)
  | VList (l : list value)
  | VDict (d : gmap string value).

(** A subscript: a string key or an integer index. *)
Inductive index : Type :=
  | IStr (k : string)
  | IInt (i : Z).

(** The exceptions the two modules can meet.  [ClientError] carries the
    parsed error response, as botocore's exception does in [e.response];
    [OtherError] stands for every other exception class an SDK call may
    raise (connection failures, parameter validation, ...). *)
Inductive exn : Type :=
  | KeyError (k : index)
  | IndexError
  | TypeError
  | ClientError (response : value)
  | OtherError (name : string).

Definition result (A : Type) : Type := exn + A.

(** [s[i]] on a string: the one-character string at position [i]. *)
Definition str_at (s : string) (i : nat) : option string :=
  match String.get i s with
  | Some c => Some (String c EmptyString)
  | None => None
  end.

(** Python's sequence indexing: a negative index counts from the end. *)
Definition norm_index (len : nat) (i : Z) : option nat :=
  if 0 <=? i then (if i <? Z.of_nat len then Some (Z.to_nat i) else None)
  else (if 0 <=? Z.of_nat len + i then Some (Z.to_nat (Z.of_nat len + i)) else None).

(** [v[i]]: the subscript operation on the values above. *)
Definition getitem (v : value) (i : index) : result value :=
  match v, i with
  | VDict d, IStr k =>
      match d !! k with
      | Some x => inr x
      | None => inl (KeyError i)
      end
  | VDict _, IInt _ => inl (KeyError i)
  | VList l, IInt n =>
      match norm_index (length l) n with
      | Some j =>
          match l !! j with
          | Some x => inr x
          | None => inl IndexError
          end
      | None => inl IndexError
      end
  | VList _, IStr _ => inl TypeError
  | VStr s, IInt n =>
      match norm_index (String.length s) n with
      | Some j =>
          match str_at s j with
          | Some x => inr (VStr x)
          | None => inl IndexError
          end
      | None => inl IndexError
      end
  | VStr _, IStr _ => inl TypeError
  | _, _ => inl TypeError
  end.

(** Truthiness, as [if v:] tests it. *)
Definition truthy (v : value) : bool :=
  match v with
  | VNone => false
  | VBool b => b
  | VInt n => negb (n =? 0)
  | VFloat bits => negb (Z.land bits (Z.ones 63) =? 0)
  | VStr s => negb (String.eqb s "")
  | VList l => match l with [] => false | _ => true end
  | VDict d => negb (bool_decide (d = ∅))
  end.

(** [v[i1][i2]...[in]], left to right, stopping at the first exception. *)
Fixpoint getitem_path (v : value) (path : list index) : result value :=
  match path with
  | [] => inr v
  | i :: rest =>
      match getitem v i with
      | inr x => getitem_path x rest
      | inl e => inl e
      end
  end.

(** ** Strings *)

Definition LF : string := String (ascii_of_nat 10) EmptyString.
Definition CRLF : string := String (ascii_of_nat 13) LF.

(** [t] occurs in [s] as a contiguous run of characters (Python's [t in s]). *)
Definition is_substring (t s : string) : Prop :=
  exists pre post : string, s = pre +:+ t +:+ post.

(** The executable counterpart of [is_substring]. *)
Fixpoint contains (t s : string) : bool :=
  if String.prefix t s then true
  else match s with
       | EmptyString => false
       | String _ s' => contains t s'
       end.

(** ** Effects: state and exceptions *)

(** A computation over a state [S] that returns an [A] or raises; the
    state reached is kept in both cases, as the effects of a Python
    statement that raises half-way are. *)
Definition M (S A : Type) : Type := S -> result A * S.

Definition ret {S A} (a : A) : M S A := fun s => (inr a, s).

Definition raise {S A} (e : exn) : M S A := fun s => (inl e, s).

Definition bind {S A B} (c : M S A) (k : A -> M S B) : M S B :=
  fun s =>
    match c s with
    | (inr a, s') => k a s'
    | (inl e, s') => (inl e, s')
    end.

Definition lift {S A} (r : result A) : M S A := fun s => (r, s).

Definition modify {S} (f : S -> S) : M S unit := fun s => (inr tt, f s).

(** [try: body / except ClientError as e: handler(e.response) /
    else: orelse(result)].  Only a [ClientError] is caught; an exception
    raised by [handler] or [orelse] is not. *)
Definition try_except_ClientError {S A B}
    (body : M S A) (handler : value -> M S B) (orelse : A -> M S B) : M S B :=
  fun s =>
    match body s with
    | (inr a, s') => orelse a s'
    | (inl (ClientError response), s') => handler response s'
    | (inl e, s') => (inl e, s')
    end.

Declare Scope py_scope.
Delimit Scope py_scope with py.
Notation "x <- c ;; k" := (bind c (fun x => k))
  (at level 100, c at next level, right associativity) : py_scope.
Notation "c ;; k" := (bind c (fun _ => k))
  (at level 100, right associativity) : py_scope.

(** [str(v)], which is also what an f-string field and [print] apply.
    [py_repr] is the text Python gives numbers and containers. *)
Definition py_str (py_repr : value -> string) (v : value) : string :=
  match v with
  | VStr s => s
  | VNone => "None"
  | VBool true => "True"
  | VBool false => "False"
  | _ => py_repr v
  end.

(** ** lambda-email/email_sender.py: the Upload Notifier *)

Module EmailSender.

(** The keyword arguments of [client.send_email]. *)
Record Content := { Charset : string; Data : string }.
Record Body := { Html : Content; Text : Content }.
Record Message := { Body_ : Body; Subject : Content }.
Record Destination := { ToAddresses : list string }.
Record SendEmailRequest :=
  { Destination_ : Destination; Message_ : Message; Source : string }.

(** The handle [boto3.client(service, region_name=...)] returns. *)
Record Client := { service_name : string; region_name : string }.

(** One SDK call, as seen by the mail service. *)
Inductive call : Type :=
  | SendEmail (c : Client) (req : SendEmailRequest).

(** What an invocation leaves behind: the SDK calls it issued and the
    lines it printed, oldest first. *)
Record state := { calls : list call; stdout : list string }.

Definition initial : state := {| calls := []; stdout := [] |}.

Section Handler.

(** Python's text for numbers and containers. *)
Variable py_repr : value -> string.
(** [os.environ]. *)
Variable environ : gmap string string.
(** The SDK's client construction in this process: the exception
    [boto3.client] raises for a service and a region, if it raises (an
    empty or malformed region, no usable configuration).  Like the mail
    service below it belongs to the process the handler runs in. *)
Variable boto3_client_error : string -> string -> option exn.
(** The mail service: the response to a send-email call, or the
    exception the SDK raises for it. *)
Variable ses_send_email : Client -> SendEmailRequest -> result value.

(** [os.environ[k]] *)
Definition environ_get (k : string) : M state string :=
  match environ !! k with
  | Some v => ret v
  | None => raise (KeyError (IStr k))
  end.

(** [boto3.client(service, region_name=region)]: sends nothing; it
    either raises or returns the handle. *)
Definition boto3_client (service region : string) : M state Client :=
  match boto3_client_error service region with
  | Some e => raise e
  | None => ret {| service_name := service; region_name := region |}
  end.

(** [print(v)] *)
Definition print (v : value) : M state unit :=
  modify (fun s => {| calls := calls s; stdout := stdout s ++ [py_str py_repr v] |}).

(** [client.send_email(Destination=..., Message=..., Source=...)] *)
Definition send_email (c : Client) (req : SendEmailRequest) : M state value :=
  fun s => (ses_send_email c req,
            {| calls := calls s ++ [SendEmail c req]; stdout := stdout s |}).

Definition object_key_path : list index :=
  [IStr "Records"; IInt 0; IStr "s3"; IStr "object"; IStr "key"].
Definition bucket_name_path : list index :=
  [IStr "Records"; IInt 0; IStr "s3"; IStr "bucket"; IStr "name"].

Definition SUBJECT : string := "File Uploaded to S3 bucket".

Definition BODY_TEXT : string :=
  "Amazon SES Test (Python)" +:+ CRLF +:+
  "This email was sent with Amazon SES using the " +:+
  "AWS SDK for Python (Boto).".

(** The three literal pieces of the f-string, around its two fields. *)
Definition HTML_HEAD : string :=
  "<html>" +:+ LF +:+
  "    <head></head>" +:+ LF +:+
  "    <body>" +:+ LF +:+
  "      <h1>A file was uploaded to Bucket: ".
Definition HTML_MID : string :=
  "</h1>" +:+ LF +:+
  "      <p>File name ".
Definition HTML_TAIL : string :=
  "<p>" +:+ LF +:+
  "      <p>This email was sent with" +:+ LF +:+
  "        <a href='https://aws.amazon.com/ses/'>Amazon SES</a> using the" +:+ LF +:+
  "        <a href='https://aws.amazon.com/sdk-for-python/'>" +:+ LF +:+
  "          AWS SDK for Python (Boto)</a>.</p>" +:+ LF +:+
  "    </body>" +:+ LF +:+
  "    </html>" +:+ LF +:+
  "                ".

Definition BODY_HTML (BUCKET OBJECT : value) : string :=
  HTML_HEAD +:+ py_str py_repr BUCKET +:+ HTML_MID +:+
  py_str py_repr OBJECT +:+ HTML_TAIL.

Definition CHARSET : string := "UTF-8".

(** The request the handler builds at lines 54-77. *)
Definition request (SENDER RECIPIENT : string) (BUCKET OBJECT : value)
    : SendEmailRequest :=
  {| Destination_ := {| ToAddresses := [RECIPIENT] |};
     Message_ :=
       {| Body_ :=
            {| Html := {| Charset := CHARSET; Data := BODY_HTML BUCKET OBJECT |};
               Text := {| Charset := CHARSET; Data := BODY_TEXT |} |};
          Subject := {| Charset := CHARSET; Data := SUBJECT |} |};
     Source := SENDER |}.

Definition handler (event context : value) : M state value :=
  (SENDER <- environ_get "sender" ;;
   RECIPIENT <- environ_get "recipient" ;;
   AWS_REGION <- environ_get "awsregion" ;;
   OBJECT <- lift (getitem_path event object_key_path) ;;
   BUCKET <- lift (getitem_path event bucket_name_path) ;;
   client <- boto3_client "ses" AWS_REGION ;;
   try_except_ClientError
     (send_email client (request SENDER RECIPIENT BUCKET OBJECT))
     (fun e_response =>
        msg <- lift (getitem_path e_response [IStr "Error"; IStr "Message"]) ;;
        print msg)
     (fun response =>
        print (VStr "Email sent! Message ID:") ;;
        id <- lift (getitem response (IStr "MessageId")) ;;
        print id) ;;
   ret VNone)%py.

End Handler.

End EmailSender.

(** ** lambda-notify/lambda_fn.py: the Notification Registrar *)

Module LambdaFn.

(** The [NotificationConfiguration] argument of [bucket_notification.put]. *)
Record LambdaFunctionConfiguration :=
  { Id : string; LambdaFunctionArn : value; Events : list string }.
Record NotificationConfiguration :=
  { LambdaFunctionConfigurations : list LambdaFunctionConfiguration }.

(** The handles [boto3.resource('s3')] and
    [s3.BucketNotification(bucket_name)] return; building them sends
    nothing. *)
Record ServiceResource := { service_name : string }.
Record BucketNotification := { meta : ServiceResource; bucket_name : value }.

Definition boto3_resource (service : string) : ServiceResource :=
  {| service_name := service |}.

(** One SDK call, as seen by the storage service. *)
Inductive call : Type :=
  | Put (b : BucketNotification) (cfg : NotificationConfiguration).

(** The completion signal the lifecycle-callback helper sends to the
    orchestrator. *)
Inductive signal : Type :=
  | SUCCESS
  | FAILED.

Inductive level : Type :=
  | INFO.

(** What an invocation can change: the SDK calls issued, the
    notification configuration the storage service holds per bucket,
    the log records, and the completion signals sent. *)
Record state :=
  { calls : list call;
    store : gmap string NotificationConfiguration;
    log : list (level * string);
    signals : list signal }.

Definition with_calls (s : state) (c : list call) : state :=
  {| calls := c; store := store s; log := log s; signals := signals s |}.
Definition with_store (s : state) (m : gmap string NotificationConfiguration) : state :=
  {| calls := calls s; store := m; log := log s; signals := signals s |}.
Definition with_log (s : state) (l : list (level * string)) : state :=
  {| calls := calls s; store := store s; log := l; signals := signals s |}.
Definition with_signals (s : state) (l : list signal) : state :=
  {| calls := calls s; store := store s; log := log s; signals := l |}.

(** The signal for the outcome of a lifecycle function, and sending it. *)
Definition signal_of (r : result value) : signal :=
  match r with
  | inr _ => SUCCESS
  | inl _ => FAILED
  end.
Definition send_signal (g : signal) (s : state) : state :=
  with_signals s (signals s ++ [g]).

(** The three [def] statements of the module, as function objects. *)
Inductive func : Type :=
  | def_handler_11   (* def handler at line 11: create/update *)
  | def_delete_34    (* def delete at line 34 *)
  | def_handler_37.  (* def handler at line 37: the entry point *)

(** The slots of crhelper's [CfnResource] that the decorators fill. *)
Record CfnResource :=
  { _create_func : option func;
    _update_func : option func;
    _delete_func : option func }.

Definition CfnResource_new : CfnResource :=
  {| _create_func := None; _update_func := None; _delete_func := None |}.

(** Modelled from the spec: the helper is the crhelper library, outside
    the repository ("decorator-registered create/update/delete handlers
    dispatched by a helper object").  Each of the decorators
    [@helper.create], [@helper.update], [@helper.delete] stores the
    function in its slot and returns it unchanged. *)
Definition helper_create (h : CfnResource) (f : func) : CfnResource * func :=
  ({| _create_func := Some f; _update_func := _update_func h;
      _delete_func := _delete_func h |}, f).
Definition helper_update (h : CfnResource) (f : func) : CfnResource * func :=
  ({| _create_func := _create_func h; _update_func := Some f;
      _delete_func := _delete_func h |}, f).
Definition helper_delete (h : CfnResource) (f : func) : CfnResource * func :=
  ({| _create_func := _create_func h; _update_func := _update_func h;
      _delete_func := Some f |}, f).

(** The module's namespace while it is being imported. *)
Record module_state :=
  { globals : gmap string func; helper : CfnResource }.

(** A decorated [def name]: the decorators are applied innermost
    first, and the name is bound to what the outermost one returns. *)
Definition exec_def (name : string) (f : func)
    (decorators : list (CfnResource -> func -> CfnResource * func))
    (m : module_state) : module_state :=
  let '(h, g) :=
    fold_right (fun dec '(h, g) => dec h g) (helper m, f) decorators in
  {| globals := <[name := g]> (globals m); helper := h |}.

(** Line 7: [helper = CfnResource(...)], with an empty namespace. *)
Definition module_init : module_state :=
  {| globals := ∅; helper := CfnResource_new |}.

(** Importing the module: the three [def] statements in source order. *)
Definition module_exec : module_state :=
  exec_def "handler" def_handler_37 []
    (exec_def "delete" def_delete_34 [helper_delete]
       (exec_def "handler" def_handler_11 [helper_create; helper_update]
          module_init)).

(** The lifecycle phase an event declares in [RequestType]. *)
Inductive phase : Type :=
  | Create
  | Update
  | Delete.

Definition request_type (event : value) : option phase :=
  match getitem event (IStr "RequestType") with
  | inr (VStr "Create") => Some Create
  | inr (VStr "Update") => Some Update
  | inr (VStr "Delete") => Some Delete
  | _ => None
  end.

Definition slot (h : CfnResource) (p : phase) : option func :=
  match p with
  | Create => _create_func h
  | Update => _update_func h
  | Delete => _delete_func h
  end.

Section Handlers.

(** [json.dumps]. *)
Variable json_dumps : value -> string.
(** The storage service: the response to a put-notification call, or
    the exception the SDK raises for it. *)
Variable s3_put : BucketNotification -> NotificationConfiguration -> result value.
(** What a put-notification call that raised has done to the
    configuration held for its bucket, given what was held before.
    Nothing is known of it: the exception may come before or after the
    service applied the call. *)
Variable s3_failed_put :
  BucketNotification -> NotificationConfiguration -> exn ->
  option NotificationConfiguration -> option NotificationConfiguration.

(** [logger.info(msg)] *)
Definition logger_info (msg : string) : M state unit :=
  modify (fun s => with_log s (log s ++ [(INFO, msg)])).

(** Modelled from the spec: the storage service is outside the
    repository.  A set-notification-configuration call that the
    service accepts replaces the bucket's configuration by the one
    sent ("fully overwritten (not merged) on each call").  The spec says
    nothing of a call that raises: what the bucket holds afterwards is
    left to [s3_failed_put].  The call addresses one bucket; the
    configurations of the others are not its business. *)
Definition apply_put (b : BucketNotification) (cfg : NotificationConfiguration)
    (r : result value) (m : gmap string NotificationConfiguration)
    : gmap string NotificationConfiguration :=
  match bucket_name b, r with
  | VStr name, inr _ => <[name := cfg]> m
  | VStr name, inl e => partial_alter (s3_failed_put b cfg e) name m
  | _, _ => m
  end.

(** [s3.BucketNotification(bucket_name)]: the resource constructor
    raises [ValueError] for an identifier that is [None] and accepts any
    other value; it sends nothing. *)
Definition s3_BucketNotification (s3 : ServiceResource) (bucket_name : value)
    : M state BucketNotification :=
  match bucket_name with
  | VNone => raise (OtherError "ValueError")
  | _ => ret {| meta := s3; bucket_name := bucket_name |}
  end.

(** [bucket_notification.put(NotificationConfiguration=cfg)] *)
Definition put (b : BucketNotification) (cfg : NotificationConfiguration)
    : M state value :=
  fun s =>
    let r := s3_put b cfg in
    (r, with_store (with_calls s (calls s ++ [Put b cfg]))
          (apply_put b cfg r (store s))).

(** What the SDK returns for a call that succeeded: the parsed
    response, a dictionary that carries ResponseMetadata. *)
Definition sdk_response (v : value) : Prop :=
  exists d : gmap string value, v = VDict d /\ is_Some (d !! "ResponseMetadata").

(** The [NotificationConfiguration] dictionary of lines 19-26. *)
Definition notification_configuration (lambda_arn : value)
    : NotificationConfiguration :=
  {| LambdaFunctionConfigurations :=
       [ {| Id := "object-create-permission";
            LambdaFunctionArn := lambda_arn;
            Events := ["s3:ObjectCreated:*"] |} ] |}.

(** Lines 11-31: the function registered for create and update. *)
Definition handler_create_update (event context : value) : M state value :=
  (logger_info "Creating or Updating" ;;
   bucket_name <- lift (getitem_path event [IStr "ResourceProperties"; IStr "S3BucketName"]) ;;
   lambda_arn <- lift (getitem_path event [IStr "ResourceProperties"; IStr "FunctionARN"]) ;;
   let s3 := boto3_resource "s3" in
   bucket_notification <- s3_BucketNotification s3 bucket_name ;;
   response <- put bucket_notification (notification_configuration lambda_arn) ;;
   (if truthy response
    then logger_info ("Created or Updated, " +:+ json_dumps response)
    else ret tt) ;;
   ret response)%py.

(** Lines 34-35. *)
Definition delete (event context : value) : M state value :=
  (logger_info "Deleted" ;;
   ret VNone)%py.

(** Modelled from the spec: the lifecycle-callback helper is the
    crhelper library, outside the repository.  Calling it maps the
    phase the event declares to the function registered for that
    phase, runs it, and signals completion to the orchestrator:
    success when the function returns, failure when it raises (the
    exception is translated into the signal, not re-raised) or when
    the event declares no known phase.  A phase with no registered
    function completes with success.  [run] is how a function object
    is called. *)
Definition helper_call (h : CfnResource)
    (run : func -> value -> value -> M state value)
    (event context : value) : M state unit :=
  fun s =>
    match request_type event with
    | Some p =>
        match slot h p with
        | Some f =>
            let '(r, s') := run f event context s in
            (inr tt, send_signal (signal_of r) s')
        | None => (inr tt, send_signal SUCCESS s)
        end
    | None => (inr tt, send_signal FAILED s)
    end.

(** Calling a function object of the imported module [m].  The entry
    point calls the helper, which calls a registered function: [depth]
    bounds the nesting, as the interpreter's recursion limit does. *)
Fixpoint call_func (m : module_state) (depth : nat) (f : func)
    (event context : value) : M state value :=
  match depth with
  | O => raise (OtherError "RecursionError")
  | S d =>
      match f with
      | def_handler_11 => handler_create_update event context
      | def_delete_34 => delete event context
      | def_handler_37 =>
          (* lines 37-38: helper(event, context), result dropped *)
          (helper_call (helper m) (call_func m d) event context ;;
           ret VNone)%py
      end
  end.

(** The platform invokes the module attribute [handler]. *)
Definition lambda_invoke (m : module_state) (depth : nat)
    (event context : value) : M state value :=
  match globals m !! "handler" with
  | Some f => call_func m depth f event context
  | None => raise (OtherError "Runtime.HandlerNotFound")
  end.

End Handlers.

End LambdaFn.

(** ** Sample inputs *)

Module Samples.

(** An S3 "object created" event for [photo.png] in [my-bucket]. *)
Definition upload_event : value :=
  VDict {[ "Records" :=
    VList [ VDict {[ "s3" :=
      VDict (<[ "object" := VDict {[ "key" := VStr "photo.png" ]} ]>
             {[ "bucket" := VDict {[ "name" := VStr "my-bucket" ]} ]}) ]} ] ]}.

(** The same upload, followed by a second record for another bucket. *)
Definition two_records_event : value :=
  VDict {[ "Records" :=
    VList [ VDict {[ "s3" :=
              VDict (<[ "object" := VDict {[ "key" := VStr "photo.png" ]} ]>
                     {[ "bucket" := VDict {[ "name" := VStr "my-bucket" ]} ]}) ]};
            VDict {[ "s3" :=
              VDict (<[ "object" := VDict {[ "key" := VStr "other.txt" ]} ]>
                     {[ "bucket" := VDict {[ "name" := VStr "other-bucket" ]} ]}) ]} ] ]}.

(** An event whose record list is empty. *)
Definition empty_records_event : value :=
  VDict {[ "Records" := VList [] ]}.

Definition full_environ : gmap string string :=
  <[ "sender" := "from@example.com" ]>
  (<[ "recipient" := "to@example.com" ]>
   {[ "awsregion" := "eu-west-1" ]}).

(** The same environment without [recipient]. *)
Definition partial_environ : gmap string string :=
  <[ "sender" := "from@example.com" ]> {[ "awsregion" := "eu-west-1" ]}.

Definition repr_stub (_ : value) : string := "<repr>".

(** The SDK's check of a region name: letters, digits and hyphens. *)
Definition region_char_ok (c : ascii) : bool :=
  let n := nat_of_ascii c in
  ((48 <=? n) && (n <=? 57) || (65 <=? n) && (n <=? 90) ||
   (97 <=? n) && (n <=? 122) || (n =? 45))%nat.

Fixpoint string_forallb (f : ascii -> bool) (s : string) : bool :=
  match s with
  | EmptyString => true
  | String c s' => f c && string_forallb f s'
  end.

(** A client construction that refuses a malformed region and nothing
    else. *)
Definition sdk_client_error (service region : string) : option exn :=
  if string_forallb region_char_ok region then None
  else Some (OtherError "InvalidRegionError").

(** The full environment with a region that is not a region name. *)
Definition malformed_region_environ : gmap string string :=
  <[ "sender" := "from@example.com" ]>
  (<[ "recipient" := "to@example.com" ]>
   {[ "awsregion" := "eu west 1" ]}).

(** A mail service that accepts everything. *)
Definition ses_accept (_ : EmailSender.Client) (_ : EmailSender.SendEmailRequest)
    : result value :=
  inr (VDict {[ "MessageId" := VStr "0100-abc" ]}).

(** A mail service that rejects everything: the sender is not verified. *)
Definition rejection : value :=
  VDict {[ "Error" :=
    VDict (<[ "Code" := VStr "MessageRejected" ]>
           {[ "Message" := VStr "Email address is not verified." ]}) ]}.
Definition ses_reject (_ : EmailSender.Client) (_ : EmailSender.SendEmailRequest)
    : result value :=
  inl (ClientError rejection).

(** A custom-resource event for phase [rt]. *)
Definition cfn_event (rt : string) : value :=
  VDict (<[ "RequestType" := VStr rt ]>
         {[ "ResourceProperties" :=
              VDict (<[ "S3BucketName" := VStr "my-bucket" ]>
                     {[ "FunctionARN" :=
                          VStr "arn:aws:lambda:eu-west-1:123456789012:function:notify" ]}) ]}).

Definition dumps_stub (_ : value) : string := "<json>".

(** A storage service that answers with response metadata. *)
Definition s3_accept (_ : LambdaFn.BucketNotification)
    (_ : LambdaFn.NotificationConfiguration) : result value :=
  inr (VDict {[ "ResponseMetadata" := VDict {[ "HTTPStatusCode" := VInt 200 ]} ]}).

(** A failed put that has changed nothing. *)
Definition s3_failed_put_none (_ : LambdaFn.BucketNotification)
    (_ : LambdaFn.NotificationConfiguration) (_ : exn)
    (old : option LambdaFn.NotificationConfiguration)
    : option LambdaFn.NotificationConfiguration := old.

(** A bucket that already holds two rules. *)
Definition old_store : gmap string LambdaFn.NotificationConfiguration :=
  {[ "my-bucket" :=
       {| LambdaFn.LambdaFunctionConfigurations :=
            [ {| LambdaFn.Id := "resize";
                 LambdaFn.LambdaFunctionArn := VStr "arn:aws:lambda:eu-west-1:123456789012:function:resize";
                 LambdaFn.Events := ["s3:ObjectCreated:Put"] |};
              {| LambdaFn.Id := "audit";
                 LambdaFn.LambdaFunctionArn := VStr "arn:aws:lambda:eu-west-1:123456789012:function:audit";
                 LambdaFn.Events := ["s3:ObjectRemoved:*"] |} ] |} ]}.

(** A mail service that cannot be reached: the SDK raises an exception
    that is not a [ClientError]. *)
Definition ses_unreachable (_ : EmailSender.Client) (_ : EmailSender.SendEmailRequest)
    : result value :=
  inl (OtherError "EndpointConnectionError").

(** A mail service whose rejection carries an error code but no message. *)
Definition ses_reject_bare (_ : EmailSender.Client) (_ : EmailSender.SendEmailRequest)
    : result value :=
  inl (ClientError (VDict {[ "Error" := VDict {[ "Code" := VStr "Throttling" ]} ]})).

(** A mail service whose answer carries no message identifier. *)
Definition ses_accept_bare (_ : EmailSender.Client) (_ : EmailSender.SendEmailRequest)
    : result value :=
  inr (VDict {[ "ResponseMetadata" := VDict ∅ ]}).

(** An environment that holds none of the three variables. *)
Definition empty_environ : gmap string string := ∅.

(** An event with no record list at all. *)
Definition no_records_event : value :=
  VDict {[ "detail-type" := VStr "Scheduled Event" ]}.

(** A custom-resource event whose properties lack the function identifier. *)
Definition cfn_event_without_arn : value :=
  VDict (<[ "RequestType" := VStr "Create" ]>
         {[ "ResourceProperties" :=
              VDict {[ "S3BucketName" := VStr "my-bucket" ]} ]}).

(** A storage service that rejects the call: the bucket does not exist. *)
Definition s3_reject (_ : LambdaFn.BucketNotification)
    (_ : LambdaFn.NotificationConfiguration) : result value :=
  inl (ClientError (VDict {[ "Error" :=
         VDict (<[ "Code" := VStr "NoSuchBucket" ]>
                {[ "Message" := VStr "The specified bucket does not exist" ]}) ]})).

(** The registrar's state before an invocation, with that bucket. *)
Definition registrar_state : LambdaFn.state :=
  {| LambdaFn.calls := []; LambdaFn.store := old_store;
     LambdaFn.log := []; LambdaFn.signals := [] |}.

End Samples.

(** ** Strings: lemmas *)

Lemma append_cons (x : ascii) (a b : string) :
  String x a +:+ b = String x (a +:+ b).
Proof. reflexivity. Qed.

Lemma append_nil_l (b : string) : "" +:+ b = b.
Proof. reflexivity. Qed.

Lemma append_assoc (a b c : string) : (a +:+ b) +:+ c = a +:+ b +:+ c.
Proof.
  induction a as [|x a IH]; [reflexivity|].
  now rewrite !append_cons, IH.
Qed.

Lemma prefix_spec (t s : string) :
  String.prefix t s = true <-> exists post, s = t +:+ post.
Proof.
  revert s. induction t as [|a t IH]; intros s.
  - destruct s; simpl; split; eauto.
  - destruct s as [|b s]; simpl.
    + split; [discriminate | intros [post H]; rewrite append_cons in H; discriminate].
    + destruct (ascii_dec a b) as [->|Hne].
      * rewrite IH. split; intros [post H]; exists post;
          rewrite append_cons in *; congruence.
      * split; [discriminate | intros [post H]; rewrite append_cons in H; congruence].
Qed.

Lemma contains_nil (t : string) :
  contains t "" = if String.prefix t "" then true else false.
Proof. reflexivity. Qed.

Lemma contains_cons (t : string) (a : ascii) (s : string) :
  contains t (String a s) =
  if String.prefix t (String a s) then true else contains t s.
Proof. reflexivity. Qed.

Lemma contains_spec (t s : string) : contains t s = true <-> is_substring t s.
Proof.
  split.
  - induction s as [|a s IH].
    + rewrite contains_nil. destruct (String.prefix t "") eqn:E; [|discriminate].
      intros _. apply prefix_spec in E as [post E]. now exists "", post.
    + rewrite contains_cons. destruct (String.prefix t (String a s)) eqn:E.
      * intros _. apply prefix_spec in E as [post E]. now exists "", post.
      * intros H. destruct (IH H) as (pre & post & ->).
        now exists (String a pre), post.
  - intros (pre & post & ->). induction pre as [|a pre IH].
    + rewrite append_nil_l.
      assert (E : String.prefix t (t +:+ post) = true) by (apply prefix_spec; eauto).
      destruct (t +:+ post); [rewrite contains_nil | rewrite contains_cons];
        now rewrite E.
    + rewrite append_cons, contains_cons, IH. now destruct (String.prefix t _).
Qed.

Lemma not_contains (t s : string) : contains t s = false -> ~ is_substring t s.
Proof. intros E H. apply contains_spec in H. congruence. Qed.

(** ** The Upload Notifier: theorems *)

Section EmailSenderSpec.

Import EmailSender.

Variable py_repr : value -> string.
Variable client_error : string -> string -> option exn.
Variable ses : Client -> SendEmailRequest -> result value.

(** [print] only touches the output. *)
Lemma print_calls (v : value) (s : state) :
  calls (snd (print py_repr v s)) = calls s.
Proof. reflexivity. Qed.

(** With the environment complete, both event fields found and the
    client built, the handler reaches the [try] statement with the
    request built from them. *)
Lemma handler_reaches_send (environ : gmap string string)
    (event context : value) (s : state)
    (sender recipient region : string) (OBJECT BUCKET : value) :
  environ !! "sender" = Some sender ->
  environ !! "recipient" = Some recipient ->
  environ !! "awsregion" = Some region ->
  getitem_path event object_key_path = inr OBJECT ->
  getitem_path event bucket_name_path = inr BUCKET ->
  client_error "ses" region = None ->
  handler py_repr environ client_error ses event context s =
  bind
    (try_except_ClientError
       (send_email ses {| service_name := "ses"; region_name := region |}
          (request py_repr sender recipient BUCKET OBJECT))
       (fun e_response =>
          msg <- lift (getitem_path e_response [IStr "Error"; IStr "Message"]) ;;
          print py_repr msg)
       (fun response =>
          print py_repr (VStr "Email sent! Message ID:") ;;
          id <- lift (getitem response (IStr "MessageId")) ;;
          print py_repr id))%py
    (fun _ => ret VNone) s.
Proof.
  intros Hs Hr Ha Ho Hb Hc.
  unfold handler, environ_get.
  rewrite Hs, Hr, Ha, Ho, Hb.
  unfold boto3_client, bind, lift, ret. cbv beta iota.
  rewrite Hc. reflexivity.
Qed.

(** Whatever the mail service answers, the [try] statement issues the
    one call and nothing else. *)
Lemma try_send_calls (c : Client) (req : SendEmailRequest) (s : state) :
  calls (snd (bind
    (try_except_ClientError
       (send_email ses c req)
       (fun e_response =>
          msg <- lift (getitem_path e_response [IStr "Error"; IStr "Message"]) ;;
          print py_repr msg)
       (fun response =>
          print py_repr (VStr "Email sent! Message ID:") ;;
          id <- lift (getitem response (IStr "MessageId")) ;;
          print py_repr id))%py
    (fun _ => ret VNone) s)) = calls s ++ [SendEmail c req].
Proof.
  unfold bind, try_except_ClientError, send_email, lift.
  destruct (ses c req) as [e|response].
  - destruct e; try reflexivity.
    destruct (getitem_path response _); reflexivity.
  - cbn. destruct (getitem response _); reflexivity.
Qed.

Lemma handler_calls (environ : gmap string string)
    (event context : value) (s : state)
    (sender recipient region : string) (OBJECT BUCKET : value) :
  environ !! "sender" = Some sender ->
  environ !! "recipient" = Some recipient ->
  environ !! "awsregion" = Some region ->
  getitem_path event object_key_path = inr OBJECT ->
  getitem_path event bucket_name_path = inr BUCKET ->
  client_error "ses" region = None ->
  calls (snd (handler py_repr environ client_error ses event context s)) =
  calls s ++ [SendEmail {| service_name := "ses"; region_name := region |}
                (request py_repr sender recipient BUCKET OBJECT)].
Proof.
  intros Hs Hr Ha Ho Hb Hc.
  rewrite (handler_reaches_send _ _ _ _ _ _ _ _ _ Hs Hr Ha Ho Hb Hc).
  apply try_send_calls.
Qed.

Lemma body_html_has_bucket (BUCKET OBJECT : value) :
  is_substring (py_str py_repr BUCKET) (BODY_HTML py_repr BUCKET OBJECT).
Proof.
  exists HTML_HEAD, (HTML_MID +:+ py_str py_repr OBJECT +:+ HTML_TAIL).
  reflexivity.
Qed.

Lemma body_html_has_object (BUCKET OBJECT : value) :
  is_substring (py_str py_repr OBJECT) (BODY_HTML py_repr BUCKET OBJECT).
Proof.
  exists (HTML_HEAD +:+ py_str py_repr BUCKET +:+ HTML_MID), HTML_TAIL.
  unfold BODY_HTML. now rewrite !append_assoc.
Qed.

(** C1, as amended: with the expected record shape, the three
    environment values present and the client built for the region,
    the handler issues exactly one send-email call,
    whatever the mail service answers: its Source is the sender value,
    its Destination.ToAddresses is the one-element list of the
    recipient value, and Subject, Html body and Text body each carry
    the charset UTF-8. *)
Theorem handler_issues_one_send_email (environ : gmap string string)
    (event context : value) (s : state)
    (sender recipient region : string) (OBJECT BUCKET : value) :
  environ !! "sender" = Some sender ->
  environ !! "recipient" = Some recipient ->
  environ !! "awsregion" = Some region ->
  getitem_path event object_key_path = inr OBJECT ->
  getitem_path event bucket_name_path = inr BUCKET ->
  client_error "ses" region = None ->
  exists req : SendEmailRequest,
    calls (snd (handler py_repr environ client_error ses event context s)) =
      calls s ++ [SendEmail {| service_name := "ses"; region_name := region |} req] /\
    Source req = sender /\
    ToAddresses (Destination_ req) = [recipient] /\
    Charset (Subject (Message_ req)) = "UTF-8" /\
    Charset (Html (Body_ (Message_ req))) = "UTF-8" /\
    Charset (Text (Body_ (Message_ req))) = "UTF-8".
Proof.
  intros Hs Hr Ha Ho Hb Hc.
  exists (request py_repr sender recipient BUCKET OBJECT).
  split; [now apply handler_calls | repeat split].
Qed.

(** C3: for a valid event with bucket name [B] and object key [K], the
    Html body the handler renders contains [B] and [K], and is the
    fixed template with exactly these two values in its two fields:
    nothing else of the event reaches it.  It is the Html body of the
    request sent, once the client is built. *)
Theorem html_body_embeds_bucket_and_key (environ : gmap string string)
    (event context : value) (s : state)
    (sender recipient region B K : string) :
  environ !! "sender" = Some sender ->
  environ !! "recipient" = Some recipient ->
  environ !! "awsregion" = Some region ->
  getitem_path event object_key_path = inr (VStr K) ->
  getitem_path event bucket_name_path = inr (VStr B) ->
  exists req : SendEmailRequest,
    (client_error "ses" region = None ->
     calls (snd (handler py_repr environ client_error ses event context s)) =
       calls s ++ [SendEmail {| service_name := "ses"; region_name := region |} req]) /\
    is_substring B (Data (Html (Body_ (Message_ req)))) /\
    is_substring K (Data (Html (Body_ (Message_ req)))) /\
    Data (Html (Body_ (Message_ req))) =
      HTML_HEAD +:+ B +:+ HTML_MID +:+ K +:+ HTML_TAIL.
Proof.
  intros Hs Hr Ha Ho Hb.
  exists (request py_repr sender recipient (VStr B) (VStr K)).
  split; [intros Hc; now apply handler_calls|].
  split; [apply (body_html_has_bucket (VStr B) (VStr K))|].
  split; [apply (body_html_has_object (VStr B) (VStr K))|].
  reflexivity.
Qed.

(** C4, as amended: for a valid event with bucket name [B] and object
    key [K], the Html body the handler renders embeds [B] and [K]; the
    Text body is the fixed text [BODY_TEXT], the same for every event.
    They are the bodies of the request sent, once the client is built. *)
Theorem html_body_embeds_values_text_body_fixed
    (environ : gmap string string)
    (event context : value) (s : state)
    (sender recipient region B K : string) :
  environ !! "sender" = Some sender ->
  environ !! "recipient" = Some recipient ->
  environ !! "awsregion" = Some region ->
  getitem_path event object_key_path = inr (VStr K) ->
  getitem_path event bucket_name_path = inr (VStr B) ->
  exists req : SendEmailRequest,
    (client_error "ses" region = None ->
     calls (snd (handler py_repr environ client_error ses event context s)) =
       calls s ++ [SendEmail {| service_name := "ses"; region_name := region |} req]) /\
    is_substring B (Data (Html (Body_ (Message_ req)))) /\
    is_substring K (Data (Html (Body_ (Message_ req)))) /\
    Data (Text (Body_ (Message_ req))) = BODY_TEXT.
Proof.
  intros Hs Hr Ha Ho Hb.
  exists (request py_repr sender recipient (VStr B) (VStr K)).
  split; [intros Hc; now apply handler_calls|].
  split; [apply (body_html_has_bucket (VStr B) (VStr K))|].
  split; [apply (body_html_has_object (VStr B) (VStr K))|].
  reflexivity.
Qed.

(** C5, as amended: when the mail service rejects the call with a
    [ClientError] whose response carries Error.Message, the handler
    catches it and returns [None]
    normally, having issued the one call and printed exactly one line,
    the message; the success lines are not printed. *)
Theorem handler_logs_rejection (environ : gmap string string)
    (event context : value) (s : state)
    (sender recipient region : string) (OBJECT BUCKET : value)
    (e_response msg : value) :
  environ !! "sender" = Some sender ->
  environ !! "recipient" = Some recipient ->
  environ !! "awsregion" = Some region ->
  getitem_path event object_key_path = inr OBJECT ->
  getitem_path event bucket_name_path = inr BUCKET ->
  client_error "ses" region = None ->
  ses {| service_name := "ses"; region_name := region |}
      (request py_repr sender recipient BUCKET OBJECT) =
    inl (ClientError e_response) ->
  getitem_path e_response [IStr "Error"; IStr "Message"] = inr msg ->
  handler py_repr environ client_error ses event context s =
    (inr VNone,
     {| calls := calls s ++ [SendEmail {| service_name := "ses"; region_name := region |}
                               (request py_repr sender recipient BUCKET OBJECT)];
        stdout := stdout s ++ [py_str py_repr msg] |}).
Proof.
  intros Hs Hr Ha Ho Hb Hc Hrej Hmsg.
  rewrite (handler_reaches_send _ _ _ _ _ _ _ _ _ Hs Hr Ha Ho Hb Hc).
  unfold bind, try_except_ClientError, send_email, lift.
  rewrite Hrej, Hmsg. reflexivity.
Qed.

(** C6: when one of [sender], [recipient], [awsregion] is not in the
    environment, the handler raises [KeyError] for an absent one of
    them and the state is untouched: no mail-service call, no output. *)
Theorem handler_fails_on_unset_environment (environ : gmap string string)
    (event context : value) (s : state) :
  environ !! "sender" = None \/
  environ !! "recipient" = None \/
  environ !! "awsregion" = None ->
  exists k : string,
    In k ["sender"; "recipient"; "awsregion"] /\
    environ !! k = None /\
    handler py_repr environ client_error ses event context s = (inl (KeyError (IStr k)), s).
Proof.
  intros H. unfold handler, environ_get, bind, raise.
  destruct (environ !! "sender") as [a|] eqn:Es.
  2:{ exists "sender". simpl. auto. }
  destruct (environ !! "recipient") as [b|] eqn:Er.
  2:{ exists "recipient". simpl. auto. }
  destruct (environ !! "awsregion") as [c|] eqn:Ea.
  2:{ exists "awsregion". simpl. auto 6. }
  destruct H as [H|[H|H]]; discriminate.
Qed.

(** C7: when a subscript on the way to the object key or to the bucket
    name raises, the handler raises too and the state is untouched: no
    mail-service call, no output.  With the environment complete, the
    exception that reaches the caller is the one of the first failing
    subscript, the object key being read first. *)
Theorem handler_propagates_malformed_event (environ : gmap string string)
    (event context : value) (s : state) (e1 : exn) :
  getitem_path event object_key_path = inl e1 \/
  getitem_path event bucket_name_path = inl e1 ->
  exists e : exn,
    handler py_repr environ client_error ses event context s = (inl e, s) /\
    (is_Some (environ !! "sender") ->
     is_Some (environ !! "recipient") ->
     is_Some (environ !! "awsregion") ->
     getitem_path event object_key_path = inl e \/
     ((exists OBJECT, getitem_path event object_key_path = inr OBJECT) /\
      getitem_path event bucket_name_path = inl e)).
Proof.
  intros H. unfold handler, environ_get, bind, raise, lift.
  destruct (environ !! "sender") as [a|] eqn:Es.
  2:{ eexists. split; [reflexivity|]. intros [? ?]; discriminate. }
  destruct (environ !! "recipient") as [b|] eqn:Er.
  2:{ eexists. split; [reflexivity|]. intros _ [? ?]; discriminate. }
  destruct (environ !! "awsregion") as [c|] eqn:Ea.
  2:{ eexists. split; [reflexivity|]. intros _ _ [? ?]; discriminate. }
  destruct (getitem_path event object_key_path) as [eo|O] eqn:Eo.
  { exists eo. split; [reflexivity | auto]. }
  destruct (getitem_path event bucket_name_path) as [eb|B] eqn:Eb.
  { exists eb. split; [reflexivity | eauto]. }
  destruct H; discriminate.
Qed.

End EmailSenderSpec.

(** ** The Notification Registrar: theorems *)

Section LambdaFnSpec.

Import LambdaFn.

Variable json_dumps : value -> string.
Variable s3_put : BucketNotification -> NotificationConfiguration -> result value.
Variable s3_failed_put :
  BucketNotification -> NotificationConfiguration -> exn ->
  option NotificationConfiguration -> option NotificationConfiguration.

Lemma None_or_not (v : value) : v = VNone \/ v <> VNone.
Proof. destruct v; (now left) || (now right). Qed.

(** A parsed SDK response is truthy: it is not the empty dictionary. *)
Lemma sdk_response_truthy (v : value) : sdk_response v -> truthy v = true.
Proof.
  intros (d & -> & [m Hm]). cbn.
  rewrite bool_decide_eq_false_2; [reflexivity|].
  intros ->. now rewrite lookup_empty in Hm.
Qed.

(** With both resource properties found and the bucket name not [None],
    the create/update function logs, issues the one call, logs the
    response when it is truthy, and returns what the call returned or
    raised. *)
Lemma handler_create_update_run (event context : value) (s : state)
    (name arn : value) :
  getitem_path event [IStr "ResourceProperties"; IStr "S3BucketName"] = inr name ->
  getitem_path event [IStr "ResourceProperties"; IStr "FunctionARN"] = inr arn ->
  name <> VNone ->
  let b := {| meta := boto3_resource "s3"; bucket_name := name |} in
  let cfg := notification_configuration arn in
  let r := s3_put b cfg in
  handler_create_update json_dumps s3_put s3_failed_put event context s =
  (r,
   {| calls := calls s ++ [Put b cfg];
      store := apply_put s3_failed_put b cfg r (store s);
      log := log s ++ [(INFO, "Creating or Updating")] ++
             match r with
             | inr response =>
                 if truthy response
                 then [(INFO, "Created or Updated, " +:+ json_dumps response)]
                 else []
             | inl _ => []
             end;
      signals := signals s |}).
Proof.
  intros Hn Ha Hnn b cfg r.
  assert (Hb : forall s0 : state,
            s3_BucketNotification (boto3_resource "s3") name s0 = (inr b, s0)).
  { intros s0. subst b. destruct name; try reflexivity. now destruct Hnn. }
  unfold handler_create_update, bind, lift, logger_info, modify, put.
  rewrite Hn, Ha, Hb. cbn -[truthy getitem_path apply_put].
  subst r cfg.
  destruct (s3_put b _) as [e|response]; [reflexivity|].
  destruct (truthy response); cbn -[apply_put]; [|reflexivity].
  unfold with_log; cbn -[apply_put]. now rewrite <- app_assoc.
Qed.

(** A bucket name that is [None] stops the create/update function at
    the resource constructor, after its first log record. *)
Lemma handler_create_update_null_name (event context : value) (s : state)
    (arn : value) :
  getitem_path event [IStr "ResourceProperties"; IStr "S3BucketName"] = inr VNone ->
  getitem_path event [IStr "ResourceProperties"; IStr "FunctionARN"] = inr arn ->
  handler_create_update json_dumps s3_put s3_failed_put event context s =
    (inl (OtherError "ValueError"),
     with_log s (log s ++ [(INFO, "Creating or Updating")])).
Proof.
  intros Hn Ha.
  unfold handler_create_update, bind, lift, logger_info, modify.
  now rewrite Hn, Ha.
Qed.

(** After the import, the name [handler] is the function of line 37
    and the three slots of the helper hold the decorated functions. *)
Lemma module_exec_handler : globals module_exec !! "handler" = Some def_handler_37.
Proof. unfold module_exec, exec_def; cbn. apply lookup_insert_eq. Qed.

Lemma module_exec_helper :
  helper module_exec =
  {| _create_func := Some def_handler_11;
     _update_func := Some def_handler_11;
     _delete_func := Some def_delete_34 |}.
Proof. reflexivity. Qed.

Lemma lambda_invoke_registered (event context : value) (s : state)
    (d : nat) (p : phase) (f : func) :
  request_type event = Some p ->
  slot (helper module_exec) p = Some f ->
  lambda_invoke json_dumps s3_put s3_failed_put module_exec (S d) event context s =
  let out := call_func json_dumps s3_put s3_failed_put module_exec d f event context s in
  (inr VNone, send_signal (signal_of (fst out)) (snd out)).
Proof.
  intros Hp Hf. unfold lambda_invoke. rewrite module_exec_handler.
  cbn [call_func]. unfold bind, helper_call. rewrite Hp, Hf.
  now destruct (call_func _ _ _ _ _ _ _ _) as [r s'].
Qed.

(** A delete event reaches the function of line 34 through the helper. *)
Lemma lambda_invoke_delete (event context : value) (s : state) (d : nat) :
  request_type event = Some Delete ->
  lambda_invoke json_dumps s3_put s3_failed_put module_exec (S (S d)) event context s =
  (inr VNone, send_signal SUCCESS (snd (delete event context s))).
Proof.
  intros Hp.
  now rewrite (lambda_invoke_registered _ _ _ _ Delete def_delete_34 Hp).
Qed.

(** C2: for an event whose resource properties give bucket name [B2]
    and function identifier [F2], the create/update function issues
    exactly one put-notification call, for [B2], whose configuration
    is the single rule with id object-create-permission, function
    [F2] and events [s3:ObjectCreated:*]; when the service accepts
    it, the bucket holds exactly that configuration afterwards,
    whatever it held before. *)
Theorem create_update_overwrites_with_single_rule
    (event context : value) (s : state) (B2 F2 : string) :
  getitem_path event [IStr "ResourceProperties"; IStr "S3BucketName"] = inr (VStr B2) ->
  getitem_path event [IStr "ResourceProperties"; IStr "FunctionARN"] = inr (VStr F2) ->
  let b := {| meta := boto3_resource "s3"; bucket_name := VStr B2 |} in
  let cfg :=
    {| LambdaFunctionConfigurations :=
         [ {| Id := "object-create-permission";
              LambdaFunctionArn := VStr F2;
              Events := ["s3:ObjectCreated:*"] |} ] |} in
  let s' := snd (handler_create_update json_dumps s3_put s3_failed_put event context s) in
  calls s' = calls s ++ [Put b cfg] /\
  (forall r, s3_put b cfg = inr r -> store s' = <[B2 := cfg]> (store s)) /\
  (forall r, s3_put b cfg = inr r -> store s' !! B2 = Some cfg).
Proof.
  intros Hn Ha b cfg s'. subst s'.
  rewrite (handler_create_update_run _ _ _ _ _ Hn Ha ltac:(discriminate)).
  cbn [snd calls store].
  split; [reflexivity|].
  assert (H : forall r, s3_put b cfg = inr r ->
              apply_put s3_failed_put b cfg (s3_put b cfg) (store s) =
              <[B2 := cfg]> (store s)).
  { intros r Hr. now rewrite Hr. }
  split; intros r Hok; fold b; change (notification_configuration (VStr F2)) with cfg;
    rewrite (H r Hok); [reflexivity | apply lookup_insert_eq].
Qed.

(** C8: the delete function returns [None], issues no call, leaves the
    stored notification configurations as they are, and adds the one
    log record "Deleted". *)
Theorem delete_issues_no_storage_call (event context : value) (s : state) :
  fst (delete event context s) = inr VNone /\
  calls (snd (delete event context s)) = calls s /\
  store (snd (delete event context s)) = store s /\
  log (snd (delete event context s)) = log s ++ [(INFO, "Deleted")] /\
  signals (snd (delete event context s)) = signals s.
Proof. repeat split. Qed.

(** C9: when the create/update function returns, the storage service
    answering as the SDK does, it has issued one put-notification call,
    the value it returns is the response of that call, unchanged, and it
    has logged "Created or Updated, " followed by that response as
    JSON. *)
Theorem create_update_returns_and_logs_response
    (event context : value) (s : state) (v : value) :
  (forall b cfg r, s3_put b cfg = inr r -> sdk_response r) ->
  fst (handler_create_update json_dumps s3_put s3_failed_put event context s) = inr v ->
  exists (b : BucketNotification) (cfg : NotificationConfiguration),
    calls (snd (handler_create_update json_dumps s3_put s3_failed_put event context s)) =
      calls s ++ [Put b cfg] /\
    s3_put b cfg = inr v /\
    log (snd (handler_create_update json_dumps s3_put s3_failed_put event context s)) =
      log s ++ [(INFO, "Creating or Updating");
                (INFO, "Created or Updated, " +:+ json_dumps v)].
Proof.
  intros Hsdk.
  destruct (getitem_path event [IStr "ResourceProperties"; IStr "S3BucketName"])
    as [e|name] eqn:Hn.
  { unfold handler_create_update, bind, lift, logger_info, modify.
    rewrite Hn. discriminate. }
  destruct (getitem_path event [IStr "ResourceProperties"; IStr "FunctionARN"])
    as [e|arn] eqn:Ha.
  { unfold handler_create_update, bind, lift, logger_info, modify.
    rewrite Hn, Ha. discriminate. }
  destruct (None_or_not name) as [->|Hnn].
  { rewrite (handler_create_update_null_name _ _ _ _ Hn Ha). discriminate. }
  rewrite (handler_create_update_run _ _ _ _ _ Hn Ha Hnn). cbn [fst snd calls log].
  intros Hv. eexists _, _. split; [reflexivity|]. split; [exact Hv|].
  rewrite Hv. now rewrite (sdk_response_truthy v (Hsdk _ _ _ Hv)).
Qed.

(** C10: after the import the name [handler] is bound to the function
    of line 37, which hands every event to the helper; the function of
    line 11 is no longer reachable by name but sits in the helper's
    create and update slots; and for a create or update event the
    entry point runs the create/update function inside the helper:
    its result is dropped, [None] is returned and the helper signals
    success or failure. *)
Theorem entry_point_dispatches_create_update_through_helper
    (event context : value) (s : state) (d : nat) :
  request_type event = Some Create \/ request_type event = Some Update ->
  globals module_exec !! "handler" = Some def_handler_37 /\
  _create_func (helper module_exec) = Some def_handler_11 /\
  _update_func (helper module_exec) = Some def_handler_11 /\
  (forall (ev ctx : value) (s0 : state) (n : nat),
     lambda_invoke json_dumps s3_put s3_failed_put module_exec (S n) ev ctx s0 =
     bind (helper_call (helper module_exec)
             (call_func json_dumps s3_put s3_failed_put module_exec n) ev ctx)
          (fun _ => ret VNone) s0) /\
  lambda_invoke json_dumps s3_put s3_failed_put module_exec (S (S d)) event context s =
    (let out := handler_create_update json_dumps s3_put s3_failed_put event context s in
     (inr VNone, send_signal (signal_of (fst out)) (snd out))).
Proof.
  intros Hp.
  split; [apply module_exec_handler|].
  split; [reflexivity|]. split; [reflexivity|].
  split.
  - intros ev ctx s0 n. unfold lambda_invoke.
    now rewrite module_exec_handler.
  - destruct Hp as [Hp|Hp].
    + now rewrite (lambda_invoke_registered _ _ _ _ Create def_handler_11 Hp).
    + now rewrite (lambda_invoke_registered _ _ _ _ Update def_handler_11 Hp).
Qed.

End LambdaFnSpec.

(** ** Concrete runs *)

Section Runs.

Import Samples.

(** C1, as stated, fails: with the three environment values present and
    an event of the expected shape, a region that is not a region name
    makes the client construction raise, and no call is issued. *)
Lemma malformed_region_sends_nothing :
  malformed_region_environ !! "sender" = Some "from@example.com" /\
  malformed_region_environ !! "recipient" = Some "to@example.com" /\
  malformed_region_environ !! "awsregion" = Some "eu west 1" /\
  getitem_path upload_event EmailSender.object_key_path = inr (VStr "photo.png") /\
  getitem_path upload_event EmailSender.bucket_name_path = inr (VStr "my-bucket") /\
  EmailSender.handler repr_stub malformed_region_environ sdk_client_error ses_accept
    upload_event VNone EmailSender.initial =
  (inl (OtherError "InvalidRegionError"),
   {| EmailSender.calls := []; EmailSender.stdout := [] |}).
Proof. repeat split; vm_compute; reflexivity. Qed.

Lemma handler_issues_one_send_email_witness :
  exists req : EmailSender.SendEmailRequest,
    EmailSender.calls
      (snd (EmailSender.handler repr_stub full_environ sdk_client_error ses_accept
              upload_event VNone EmailSender.initial)) =
      EmailSender.calls EmailSender.initial ++
      [EmailSender.SendEmail {| EmailSender.service_name := "ses"; EmailSender.region_name := "eu-west-1" |} req] /\
    EmailSender.Source req = "from@example.com" /\
    EmailSender.ToAddresses (EmailSender.Destination_ req) = ["to@example.com"] /\
    EmailSender.Charset (EmailSender.Subject (EmailSender.Message_ req)) = "UTF-8" /\
    EmailSender.Charset (EmailSender.Html (EmailSender.Body_ (EmailSender.Message_ req))) = "UTF-8" /\
    EmailSender.Charset (EmailSender.Text (EmailSender.Body_ (EmailSender.Message_ req))) = "UTF-8".
Proof.
  apply (handler_issues_one_send_email repr_stub sdk_client_error ses_accept full_environ
           upload_event VNone EmailSender.initial
           "from@example.com" "to@example.com" "eu-west-1"
           (VStr "photo.png") (VStr "my-bucket"));
    vm_compute; reflexivity.
Defined.

Lemma html_body_embeds_bucket_and_key_witness :
  exists req : EmailSender.SendEmailRequest,
    EmailSender.calls
      (snd (EmailSender.handler repr_stub full_environ sdk_client_error ses_accept
              upload_event VNone EmailSender.initial)) =
      EmailSender.calls EmailSender.initial ++
      [EmailSender.SendEmail {| EmailSender.service_name := "ses"; EmailSender.region_name := "eu-west-1" |} req] /\
    is_substring "my-bucket"
      (EmailSender.Data (EmailSender.Html (EmailSender.Body_ (EmailSender.Message_ req)))) /\
    is_substring "photo.png"
      (EmailSender.Data (EmailSender.Html (EmailSender.Body_ (EmailSender.Message_ req)))) /\
    EmailSender.Data (EmailSender.Html (EmailSender.Body_ (EmailSender.Message_ req))) =
      EmailSender.HTML_HEAD +:+ "my-bucket" +:+ EmailSender.HTML_MID +:+
      "photo.png" +:+ EmailSender.HTML_TAIL.
Proof.
  destruct (html_body_embeds_bucket_and_key repr_stub sdk_client_error ses_accept
              full_environ upload_event VNone EmailSender.initial
              "from@example.com" "to@example.com" "eu-west-1" "my-bucket" "photo.png")
    as (req & Hcalls & Hrest); [vm_compute; reflexivity .. |].
  exists req. split; [apply Hcalls; vm_compute; reflexivity | exact Hrest].
Defined.

(** Only record 0 is read: a second record changes nothing in what is
    sent, and its bucket name and key do not occur in the Html body. *)
Lemma second_record_ignored :
  EmailSender.handler repr_stub full_environ sdk_client_error ses_accept two_records_event VNone
    EmailSender.initial =
  EmailSender.handler repr_stub full_environ sdk_client_error ses_accept upload_event VNone
    EmailSender.initial /\
  ~ is_substring "other-bucket"
      (EmailSender.BODY_HTML repr_stub (VStr "my-bucket") (VStr "photo.png")) /\
  ~ is_substring "other.txt"
      (EmailSender.BODY_HTML repr_stub (VStr "my-bucket") (VStr "photo.png")).
Proof.
  split; [vm_compute; reflexivity|].
  split; apply not_contains; vm_compute; reflexivity.
Qed.

(** C4, as stated, fails: for the upload of [photo.png] to [my-bucket]
    the Text body of the request sent contains neither value. *)
Lemma text_body_lacks_bucket_and_key :
  getitem_path upload_event EmailSender.bucket_name_path = inr (VStr "my-bucket") /\
  getitem_path upload_event EmailSender.object_key_path = inr (VStr "photo.png") /\
  exists req : EmailSender.SendEmailRequest,
    EmailSender.calls
      (snd (EmailSender.handler repr_stub full_environ sdk_client_error ses_accept
              upload_event VNone EmailSender.initial)) =
      [EmailSender.SendEmail {| EmailSender.service_name := "ses"; EmailSender.region_name := "eu-west-1" |} req] /\
    ~ is_substring "my-bucket"
        (EmailSender.Data (EmailSender.Text (EmailSender.Body_ (EmailSender.Message_ req)))) /\
    ~ is_substring "photo.png"
        (EmailSender.Data (EmailSender.Text (EmailSender.Body_ (EmailSender.Message_ req)))).
Proof.
  split; [vm_compute; reflexivity|]. split; [vm_compute; reflexivity|].
  eexists. split; [vm_compute; reflexivity|].
  split; apply not_contains; vm_compute; reflexivity.
Qed.

Lemma html_body_embeds_values_text_body_fixed_witness :
  exists req : EmailSender.SendEmailRequest,
    EmailSender.calls
      (snd (EmailSender.handler repr_stub full_environ sdk_client_error ses_accept
              upload_event VNone EmailSender.initial)) =
      EmailSender.calls EmailSender.initial ++
      [EmailSender.SendEmail {| EmailSender.service_name := "ses"; EmailSender.region_name := "eu-west-1" |} req] /\
    is_substring "my-bucket"
      (EmailSender.Data (EmailSender.Html (EmailSender.Body_ (EmailSender.Message_ req)))) /\
    is_substring "photo.png"
      (EmailSender.Data (EmailSender.Html (EmailSender.Body_ (EmailSender.Message_ req)))) /\
    EmailSender.Data (EmailSender.Text (EmailSender.Body_ (EmailSender.Message_ req))) =
      EmailSender.BODY_TEXT.
Proof.
  destruct (html_body_embeds_values_text_body_fixed repr_stub sdk_client_error ses_accept
              full_environ upload_event VNone EmailSender.initial
              "from@example.com" "to@example.com" "eu-west-1" "my-bucket" "photo.png")
    as (req & Hcalls & Hrest); [vm_compute; reflexivity .. |].
  exists req. split; [apply Hcalls; vm_compute; reflexivity | exact Hrest].
Defined.

(** C5, as stated, fails: a rejection whose response carries an error
    code but no message is caught, and then the handler raises
    [KeyError] instead of returning; nothing is printed. *)
Lemma rejection_without_message_not_logged :
  ses_reject_bare
    {| EmailSender.service_name := "ses"; EmailSender.region_name := "eu-west-1" |}
    (EmailSender.request repr_stub "from@example.com" "to@example.com"
       (VStr "my-bucket") (VStr "photo.png")) =
    inl (ClientError (VDict {[ "Error" := VDict {[ "Code" := VStr "Throttling" ]} ]})) /\
  EmailSender.handler repr_stub full_environ sdk_client_error ses_reject_bare
    upload_event VNone EmailSender.initial =
  (inl (KeyError (IStr "Message")),
   {| EmailSender.calls :=
        [EmailSender.SendEmail
           {| EmailSender.service_name := "ses"; EmailSender.region_name := "eu-west-1" |}
           (EmailSender.request repr_stub "from@example.com" "to@example.com"
              (VStr "my-bucket") (VStr "photo.png"))];
      EmailSender.stdout := [] |}).
Proof. split; vm_compute; reflexivity. Qed.

Lemma handler_logs_rejection_witness :
  EmailSender.handler repr_stub full_environ sdk_client_error ses_reject upload_event VNone
    EmailSender.initial =
  (inr VNone,
   {| EmailSender.calls :=
        [EmailSender.SendEmail {| EmailSender.service_name := "ses"; EmailSender.region_name := "eu-west-1" |}
           (EmailSender.request repr_stub "from@example.com" "to@example.com"
              (VStr "my-bucket") (VStr "photo.png"))];
      EmailSender.stdout := ["Email address is not verified."] |}).
Proof.
  apply (handler_logs_rejection repr_stub sdk_client_error ses_reject full_environ
           upload_event VNone EmailSender.initial
           "from@example.com" "to@example.com" "eu-west-1"
           (VStr "photo.png") (VStr "my-bucket")
           rejection (VStr "Email address is not verified."));
    vm_compute; reflexivity.
Defined.

Lemma handler_fails_on_unset_environment_witness :
  exists k : string,
    In k ["sender"; "recipient"; "awsregion"] /\
    partial_environ !! k = None /\
    EmailSender.handler repr_stub partial_environ sdk_client_error ses_accept upload_event VNone
      EmailSender.initial = (inl (KeyError (IStr k)), EmailSender.initial).
Proof.
  apply (handler_fails_on_unset_environment repr_stub sdk_client_error ses_accept partial_environ
           upload_event VNone EmailSender.initial).
  right; left. vm_compute; reflexivity.
Defined.

Lemma handler_propagates_malformed_event_witness :
  exists e : exn,
    EmailSender.handler repr_stub full_environ sdk_client_error ses_accept empty_records_event VNone
      EmailSender.initial = (inl e, EmailSender.initial) /\
    (is_Some (full_environ !! "sender") ->
     is_Some (full_environ !! "recipient") ->
     is_Some (full_environ !! "awsregion") ->
     getitem_path empty_records_event EmailSender.object_key_path = inl e \/
     ((exists OBJECT,
         getitem_path empty_records_event EmailSender.object_key_path = inr OBJECT) /\
      getitem_path empty_records_event EmailSender.bucket_name_path = inl e)).
Proof.
  apply (handler_propagates_malformed_event repr_stub sdk_client_error ses_accept full_environ
           empty_records_event VNone EmailSender.initial IndexError).
  left. vm_compute; reflexivity.
Defined.

Lemma create_update_overwrites_with_single_rule_witness :
  let b := {| LambdaFn.meta := LambdaFn.boto3_resource "s3";
              LambdaFn.bucket_name := VStr "my-bucket" |} in
  let cfg :=
    {| LambdaFn.LambdaFunctionConfigurations :=
         [ {| LambdaFn.Id := "object-create-permission";
              LambdaFn.LambdaFunctionArn :=
                VStr "arn:aws:lambda:eu-west-1:123456789012:function:notify";
              LambdaFn.Events := ["s3:ObjectCreated:*"] |} ] |} in
  let s' := snd (LambdaFn.handler_create_update dumps_stub s3_accept s3_failed_put_none
                   (cfn_event "Create") VNone registrar_state) in
  LambdaFn.calls s' = [LambdaFn.Put b cfg] /\
  LambdaFn.store s' !! "my-bucket" = Some cfg.
Proof.
  intros b cfg s'.
  destruct (create_update_overwrites_with_single_rule dumps_stub s3_accept s3_failed_put_none
              (cfn_event "Create") VNone registrar_state "my-bucket"
              "arn:aws:lambda:eu-west-1:123456789012:function:notify")
    as (Hcalls & _ & Hstore); [vm_compute; reflexivity .. |].
  split; [exact Hcalls|].
  exact (Hstore _ eq_refl).
Defined.

Lemma create_update_returns_and_logs_response_witness :
  exists (b : LambdaFn.BucketNotification) (cfg : LambdaFn.NotificationConfiguration),
    LambdaFn.calls
      (snd (LambdaFn.handler_create_update dumps_stub s3_accept s3_failed_put_none
              (cfn_event "Update") VNone registrar_state)) =
      LambdaFn.calls registrar_state ++ [LambdaFn.Put b cfg] /\
    s3_accept b cfg =
      inr (VDict {[ "ResponseMetadata" := VDict {[ "HTTPStatusCode" := VInt 200 ]} ]}) /\
    LambdaFn.log
      (snd (LambdaFn.handler_create_update dumps_stub s3_accept s3_failed_put_none
              (cfn_event "Update") VNone registrar_state)) =
      LambdaFn.log registrar_state ++
      [(LambdaFn.INFO, "Creating or Updating");
       (LambdaFn.INFO, "Created or Updated, " +:+
          dumps_stub (VDict {[ "ResponseMetadata" :=
                                 VDict {[ "HTTPStatusCode" := VInt 200 ]} ]}))].
Proof.
  apply (create_update_returns_and_logs_response dumps_stub s3_accept s3_failed_put_none
           (cfn_event "Update") VNone registrar_state).
  - intros b cfg r Hr. injection Hr as <-.
    eexists. split; [reflexivity|]. eexists. vm_compute. reflexivity.
  - vm_compute. reflexivity.
Defined.

Lemma entry_point_dispatches_create_update_through_helper_witness :
  LambdaFn.lambda_invoke dumps_stub s3_accept s3_failed_put_none LambdaFn.module_exec 2
    (cfn_event "Create") VNone registrar_state =
  (let out := LambdaFn.handler_create_update dumps_stub s3_accept s3_failed_put_none
                (cfn_event "Create") VNone registrar_state in
   (inr VNone, LambdaFn.send_signal (LambdaFn.signal_of (fst out)) (snd out))).
Proof.
  apply (entry_point_dispatches_create_update_through_helper dumps_stub s3_accept s3_failed_put_none
           (cfn_event "Create") VNone registrar_state 0%nat).
  left. vm_compute; reflexivity.
Defined.

End Runs.

(** ** The Upload Notifier: further properties *)

Section EmailSenderMore.

Import EmailSender.

Variable py_repr : value -> string.
Variable client_error : string -> string -> option exn.
Variable ses : Client -> SendEmailRequest -> result value.

(** An unchanged state, written as the state extended by nothing. *)
Lemma state_app_nil (s : state) :
  s = {| calls := calls s ++ []; stdout := stdout s ++ [] |}.
Proof. destruct s as [c o]; cbn. now rewrite !app_nil_r. Qed.

(** X1: when the mail service accepts the call and its response carries
    MessageId, the handler returns [None] having issued the one call and
    printed exactly two lines: the fixed success line and the identifier. *)
Theorem handler_prints_message_id (environ : gmap string string)
    (event context : value) (s : state)
    (sender recipient region : string) (OBJECT BUCKET : value)
    (response id : value) :
  environ !! "sender" = Some sender ->
  environ !! "recipient" = Some recipient ->
  environ !! "awsregion" = Some region ->
  getitem_path event object_key_path = inr OBJECT ->
  getitem_path event bucket_name_path = inr BUCKET ->
  client_error "ses" region = None ->
  ses {| service_name := "ses"; region_name := region |}
      (request py_repr sender recipient BUCKET OBJECT) = inr response ->
  getitem response (IStr "MessageId") = inr id ->
  handler py_repr environ client_error ses event context s =
    (inr VNone,
     {| calls := calls s ++ [SendEmail {| service_name := "ses"; region_name := region |}
                               (request py_repr sender recipient BUCKET OBJECT)];
        stdout := stdout s ++ ["Email sent! Message ID:"; py_str py_repr id] |}).
Proof.
  intros Hs Hr Ha Ho Hb Hc Hok Hid.
  rewrite (handler_reaches_send _ _ _ _ _ _ _ _ _ _ _ _ Hs Hr Ha Ho Hb Hc).
  unfold bind, try_except_ClientError, send_email, lift, print, modify.
  rewrite Hok; cbn. rewrite Hid; cbn. now rewrite <- app_assoc.
Qed.

(** X2: an exception of the send-email call that is not a [ClientError]
    is not caught: it reaches the caller, the call has been issued and
    nothing is printed. *)
Theorem handler_propagates_other_exception (environ : gmap string string)
    (event context : value) (s : state)
    (sender recipient region : string) (OBJECT BUCKET : value) (e : exn) :
  environ !! "sender" = Some sender ->
  environ !! "recipient" = Some recipient ->
  environ !! "awsregion" = Some region ->
  getitem_path event object_key_path = inr OBJECT ->
  getitem_path event bucket_name_path = inr BUCKET ->
  client_error "ses" region = None ->
  ses {| service_name := "ses"; region_name := region |}
      (request py_repr sender recipient BUCKET OBJECT) = inl e ->
  (forall r : value, e <> ClientError r) ->
  handler py_repr environ client_error ses event context s =
    (inl e,
     {| calls := calls s ++ [SendEmail {| service_name := "ses"; region_name := region |}
                               (request py_repr sender recipient BUCKET OBJECT)];
        stdout := stdout s |}).
Proof.
  intros Hs Hr Ha Ho Hb Hc Hex Hne.
  rewrite (handler_reaches_send _ _ _ _ _ _ _ _ _ _ _ _ Hs Hr Ha Ho Hb Hc).
  unfold bind, try_except_ClientError, send_email.
  rewrite Hex. destruct e; try reflexivity.
  now destruct (Hne response).
Qed.

(** X3: when the rejection's response has no Error.Message, the
    subscript in the [except] block raises and that exception reaches
    the caller; the call has been issued and nothing is printed. *)
Theorem handler_raises_on_rejection_without_message
    (environ : gmap string string)
    (event context : value) (s : state)
    (sender recipient region : string) (OBJECT BUCKET : value)
    (e_response : value) (e : exn) :
  environ !! "sender" = Some sender ->
  environ !! "recipient" = Some recipient ->
  environ !! "awsregion" = Some region ->
  getitem_path event object_key_path = inr OBJECT ->
  getitem_path event bucket_name_path = inr BUCKET ->
  client_error "ses" region = None ->
  ses {| service_name := "ses"; region_name := region |}
      (request py_repr sender recipient BUCKET OBJECT) =
    inl (ClientError e_response) ->
  getitem_path e_response [IStr "Error"; IStr "Message"] = inl e ->
  handler py_repr environ client_error ses event context s =
    (inl e,
     {| calls := calls s ++ [SendEmail {| service_name := "ses"; region_name := region |}
                               (request py_repr sender recipient BUCKET OBJECT)];
        stdout := stdout s |}).
Proof.
  intros Hs Hr Ha Ho Hb Hc Hrej Hmsg.
  rewrite (handler_reaches_send _ _ _ _ _ _ _ _ _ _ _ _ Hs Hr Ha Ho Hb Hc).
  unfold bind, try_except_ClientError, send_email, lift.
  rewrite Hrej, Hmsg. reflexivity.
Qed.

(** X4: when the accepted call's response has no MessageId, the first
    success line has already been printed when the subscript raises; the
    exception reaches the caller. *)
Theorem handler_raises_on_response_without_message_id
    (environ : gmap string string)
    (event context : value) (s : state)
    (sender recipient region : string) (OBJECT BUCKET : value)
    (response : value) (e : exn) :
  environ !! "sender" = Some sender ->
  environ !! "recipient" = Some recipient ->
  environ !! "awsregion" = Some region ->
  getitem_path event object_key_path = inr OBJECT ->
  getitem_path event bucket_name_path = inr BUCKET ->
  client_error "ses" region = None ->
  ses {| service_name := "ses"; region_name := region |}
      (request py_repr sender recipient BUCKET OBJECT) = inr response ->
  getitem response (IStr "MessageId") = inl e ->
  handler py_repr environ client_error ses event context s =
    (inl e,
     {| calls := calls s ++ [SendEmail {| service_name := "ses"; region_name := region |}
                               (request py_repr sender recipient BUCKET OBJECT)];
        stdout := stdout s ++ ["Email sent! Message ID:"] |}).
Proof.
  intros Hs Hr Ha Ho Hb Hc Hok Hid.
  rewrite (handler_reaches_send _ _ _ _ _ _ _ _ _ _ _ _ Hs Hr Ha Ho Hb Hc).
  unfold bind, try_except_ClientError, send_email, lift, print, modify.
  rewrite Hok; cbn. rewrite Hid. reflexivity.
Qed.

Local Ltac one_call :=
  split; [reflexivity |
    split; [right; do 2 eexists; split; [reflexivity | cbn; lia] | eauto]].

(** X5: on every input the handler issues no call or exactly one
    send-email call, and prints at most two lines.  When it issues no
    call it has raised and printed nothing; when it returns, it returns
    [None]. *)
Theorem handler_effects_bounded (environ : gmap string string)
    (event context : value) (s : state) :
  exists (cs : list call) (out : list string),
    snd (handler py_repr environ client_error ses event context s) =
      {| calls := calls s ++ cs; stdout := stdout s ++ out |} /\
    ((cs = [] /\ out = [] /\
      exists e, fst (handler py_repr environ client_error ses event context s) = inl e) \/
     (exists c req, cs = [SendEmail c req] /\ (length out <= 2)%nat)) /\
    (fst (handler py_repr environ client_error ses event context s) = inr VNone \/
     exists e, fst (handler py_repr environ client_error ses event context s) = inl e).
Proof.
  assert (Hraise : forall e,
    exists (cs : list call) (out : list string),
      snd (@inl exn value e, s) =
        {| calls := calls s ++ cs; stdout := stdout s ++ out |} /\
      ((cs = [] /\ out = [] /\ exists e', fst (@inl exn value e, s) = inl e') \/
       (exists c req, cs = [SendEmail c req] /\ (length out <= 2)%nat)) /\
      (fst (@inl exn value e, s) = inr VNone \/
       exists e', fst (@inl exn value e, s) = inl e')).
  { intros e. exists [], []. split; [apply state_app_nil|]. cbn. eauto 8. }
  remember (handler py_repr environ client_error ses event context s) as res eqn:E.
  unfold handler, environ_get, boto3_client, bind, lift, raise, ret,
    try_except_ClientError, send_email, print, modify in E.
  destruct (environ !! "sender") as [a|]; cbv beta iota in E;
    [|subst res; apply Hraise].
  destruct (environ !! "recipient") as [b|]; cbv beta iota in E;
    [|subst res; apply Hraise].
  destruct (environ !! "awsregion") as [c|]; cbv beta iota in E;
    [|subst res; apply Hraise].
  destruct (getitem_path event object_key_path) as [eo|O]; cbv beta iota in E;
    [subst res; apply Hraise|].
  destruct (getitem_path event bucket_name_path) as [eb|B]; cbv beta iota in E;
    [subst res; apply Hraise|].
  destruct (client_error "ses" c) as [ec|]; cbv beta iota in E;
    [subst res; apply Hraise|].
  clear Hraise.
  set (cl := {| service_name := "ses"; region_name := c |}) in E.
  set (req := request py_repr a b B O) in E.
  destruct (ses cl req) as [e|response]; cbv beta iota in E.
  - destruct e as [k| | |eresp|n]; cbv beta iota in E;
      try (subst res; exists [SendEmail cl req], []; cbn; rewrite app_nil_r;
           one_call).
    destruct (getitem_path eresp _) as [e'|msg]; cbv beta iota in E; subst res; cbn.
    + exists [SendEmail cl req], []. rewrite app_nil_r.
      one_call.
    + exists [SendEmail cl req], [py_str py_repr msg].
      one_call.
  - destruct (getitem response _) as [e'|id]; cbv beta iota in E; subst res; cbn.
    + exists [SendEmail cl req], ["Email sent! Message ID:"].
      one_call.
    + exists [SendEmail cl req], ["Email sent! Message ID:"; py_str py_repr id].
      rewrite <- app_assoc.
      one_call.
Qed.

(** X6: of the event the handler reads only the object key and the
    bucket name of record 0, and it does not read the context: in one
    environment, two invocations whose events agree on these two
    lookups behave the same, whatever else the events and the contexts
    hold. *)
Theorem handler_reads_two_event_fields (environ : gmap string string)
    (event1 event2 context1 context2 : value) (s : state) :
  getitem_path event1 object_key_path = getitem_path event2 object_key_path ->
  getitem_path event1 bucket_name_path = getitem_path event2 bucket_name_path ->
  handler py_repr environ client_error ses event1 context1 s =
  handler py_repr environ client_error ses event2 context2 s.
Proof.
  intros Ho Hb. unfold handler.
  now rewrite Ho, Hb.
Qed.

(** X7: the environment is read in the order sender, recipient,
    awsregion, so the [KeyError] names the first of them that is unset. *)
Theorem handler_reports_first_unset_variable (environ : gmap string string)
    (event context : value) (s : state) (k : string) :
  (environ !! "sender" = None /\ k = "sender") \/
  (is_Some (environ !! "sender") /\
   environ !! "recipient" = None /\ k = "recipient") \/
  (is_Some (environ !! "sender") /\ is_Some (environ !! "recipient") /\
   environ !! "awsregion" = None /\ k = "awsregion") ->
  handler py_repr environ client_error ses event context s = (inl (KeyError (IStr k)), s).
Proof.
  unfold handler, environ_get, bind, raise.
  intros [[Hs ->]|[([a Hs] & Hr & ->)|([a Hs] & [b Hr] & Ha & ->)]].
  - now rewrite Hs.
  - now rewrite Hs, Hr.
  - now rewrite Hs, Hr, Ha.
Qed.

(** X8: with the environment complete, an event dictionary without the
    key Records makes the handler raise [KeyError] for that key, before
    any call or output. *)
Theorem handler_raises_KeyError_without_Records (environ : gmap string string)
    (d : gmap string value) (context : value) (s : state) :
  is_Some (environ !! "sender") ->
  is_Some (environ !! "recipient") ->
  is_Some (environ !! "awsregion") ->
  d !! "Records" = None ->
  handler py_repr environ client_error ses (VDict d) context s =
    (inl (KeyError (IStr "Records")), s).
Proof.
  intros [a Hs] [b Hr] [c Ha] Hd.
  unfold handler, environ_get, bind, lift. rewrite Hs, Hr, Ha.
  cbn. now rewrite Hd.
Qed.

(** X9: with the environment complete, an event whose Records list is
    empty makes the handler raise [IndexError], before any call or
    output. *)
Theorem handler_raises_IndexError_on_empty_Records
    (environ : gmap string string)
    (d : gmap string value) (context : value) (s : state) :
  is_Some (environ !! "sender") ->
  is_Some (environ !! "recipient") ->
  is_Some (environ !! "awsregion") ->
  d !! "Records" = Some (VList []) ->
  handler py_repr environ client_error ses (VDict d) context s = (inl IndexError, s).
Proof.
  intros [a Hs] [b Hr] [c Ha] Hd.
  unfold handler, environ_get, bind, lift. rewrite Hs, Hr, Ha.
  cbn. now rewrite Hd.
Qed.

(** X10: with the environment complete, an event that is not a
    dictionary makes the handler raise [TypeError], before any call or
    output. *)
Theorem handler_raises_TypeError_on_non_dict_event
    (environ : gmap string string)
    (event context : value) (s : state) :
  is_Some (environ !! "sender") ->
  is_Some (environ !! "recipient") ->
  is_Some (environ !! "awsregion") ->
  (forall d, event <> VDict d) ->
  handler py_repr environ client_error ses event context s = (inl TypeError, s).
Proof.
  intros [a Hs] [b Hr] [c Ha] Hne.
  unfold handler, environ_get, bind, lift. rewrite Hs, Hr, Ha.
  destruct event; try reflexivity. now destruct (Hne d).
Qed.

End EmailSenderMore.

(** ** The Notification Registrar: further properties *)

Section LambdaFnMore.

Import LambdaFn.

Variable json_dumps : value -> string.
Variable s3_put : BucketNotification -> NotificationConfiguration -> result value.
Variable s3_failed_put :
  BucketNotification -> NotificationConfiguration -> exn ->
  option NotificationConfiguration -> option NotificationConfiguration.

(** When a resource property is missing, the create/update function
    stops after its first log record. *)
Lemma handler_create_update_stops (event context : value) (s : state) (e : exn) :
  getitem_path event [IStr "ResourceProperties"; IStr "S3BucketName"] = inl e \/
  ((exists name,
      getitem_path event [IStr "ResourceProperties"; IStr "S3BucketName"] = inr name) /\
   getitem_path event [IStr "ResourceProperties"; IStr "FunctionARN"] = inl e) ->
  handler_create_update json_dumps s3_put s3_failed_put event context s =
    (inl e, with_log s (log s ++ [(INFO, "Creating or Updating")])).
Proof.
  unfold handler_create_update, bind, lift, logger_info, modify.
  intros [Hn|[[name Hn] Ha]]; rewrite Hn; [reflexivity|].
  now rewrite Ha.
Qed.


(** X11: when the event lacks ResourceProperties, S3BucketName or
    FunctionARN, the create/update function raises the subscript's
    exception without calling the storage service: the stored
    configurations are untouched and the log holds only the record
    "Creating or Updating". *)
Theorem create_update_fails_on_missing_property
    (event context : value) (s : state) (e : exn) :
  getitem_path event [IStr "ResourceProperties"; IStr "S3BucketName"] = inl e \/
  ((exists name,
      getitem_path event [IStr "ResourceProperties"; IStr "S3BucketName"] = inr name) /\
   getitem_path event [IStr "ResourceProperties"; IStr "FunctionARN"] = inl e) ->
  fst (handler_create_update json_dumps s3_put s3_failed_put event context s) = inl e /\
  calls (snd (handler_create_update json_dumps s3_put s3_failed_put event context s)) = calls s /\
  store (snd (handler_create_update json_dumps s3_put s3_failed_put event context s)) = store s /\
  log (snd (handler_create_update json_dumps s3_put s3_failed_put event context s)) =
    log s ++ [(INFO, "Creating or Updating")].
Proof.
  intros H. rewrite (handler_create_update_stops _ _ _ _ H). repeat split.
Qed.

(** X12: an exception of the put-notification call is not caught: the
    create/update function raises it, having issued the call for the
    bucket, and no "Created or Updated" record is logged. *)
Theorem create_update_propagates_put_exception
    (event context : value) (s : state) (B2 : string) (arn : value) (e : exn) :
  getitem_path event [IStr "ResourceProperties"; IStr "S3BucketName"] = inr (VStr B2) ->
  getitem_path event [IStr "ResourceProperties"; IStr "FunctionARN"] = inr arn ->
  s3_put {| meta := boto3_resource "s3"; bucket_name := VStr B2 |}
         (notification_configuration arn) = inl e ->
  fst (handler_create_update json_dumps s3_put s3_failed_put event context s) = inl e /\
  calls (snd (handler_create_update json_dumps s3_put s3_failed_put event context s)) =
    calls s ++ [Put {| meta := boto3_resource "s3"; bucket_name := VStr B2 |}
                    (notification_configuration arn)] /\
  log (snd (handler_create_update json_dumps s3_put s3_failed_put event context s)) =
    log s ++ [(INFO, "Creating or Updating")] /\
  signals (snd (handler_create_update json_dumps s3_put s3_failed_put event context s)) =
    signals s.
Proof.
  intros Hn Ha He.
  rewrite (handler_create_update_run _ _ _ _ _ _ _ _ Hn Ha ltac:(discriminate)).
  cbn [fst snd calls log signals]. rewrite He. repeat split.
Qed.


(** X14: on every input the create/update function issues no call or
    exactly one put-notification call, whose configuration is the single
    fixed rule; it logs "Creating or Updating" and at most one record
    more, and sends no signal itself.  When it issues no call it has
    raised and the stored configurations are untouched. *)
Theorem create_update_effects_bounded (event context : value) (s : state) :
  exists (cs : list call) (ls : list (level * string)),
    calls (snd (handler_create_update json_dumps s3_put s3_failed_put event context s)) =
      calls s ++ cs /\
    log (snd (handler_create_update json_dumps s3_put s3_failed_put event context s)) =
      log s ++ (INFO, "Creating or Updating") :: ls /\
    (length ls <= 1)%nat /\
    signals (snd (handler_create_update json_dumps s3_put s3_failed_put event context s)) =
      signals s /\
    ((cs = [] /\ ls = [] /\
      store (snd (handler_create_update json_dumps s3_put s3_failed_put event context s)) =
        store s /\
      exists e, fst (handler_create_update json_dumps s3_put s3_failed_put event context s) = inl e) \/
     (exists name arn,
        cs = [Put {| meta := boto3_resource "s3"; bucket_name := name |}
                  (notification_configuration arn)])).
Proof.
  destruct (getitem_path event [IStr "ResourceProperties"; IStr "S3BucketName"])
    as [e|name] eqn:Hn.
  { rewrite (handler_create_update_stops _ _ _ e (or_introl Hn)).
    exists [], []. cbn. rewrite app_nil_r. repeat split; eauto 8. }
  destruct (getitem_path event [IStr "ResourceProperties"; IStr "FunctionARN"])
    as [e|arn] eqn:Ha.
  { rewrite (handler_create_update_stops _ _ _ e) by (right; eauto).
    exists [], []. cbn. rewrite app_nil_r. repeat split; eauto 8. }
  destruct (None_or_not name) as [->|Hnn].
  { rewrite (handler_create_update_null_name _ _ _ _ _ _ _ Hn Ha).
    exists [], []. cbn. rewrite app_nil_r. repeat split; eauto 8. }
  rewrite (handler_create_update_run _ _ _ _ _ _ _ _ Hn Ha Hnn).
  cbn [fst snd calls log signals].
  eexists _, _. split; [reflexivity|]. split; [reflexivity|].
  split; [|split; [reflexivity | right; eauto]].
  destruct (s3_put _ _) as [e|r]; [cbn; lia|].
  destruct (truthy r); cbn; lia.
Qed.

(** X16: the delete function does not undo a create/update: after an
    accepted create/update for bucket [B2] followed by a delete, the
    bucket still holds the configuration that was sent. *)
Theorem delete_keeps_configuration
    (event event' context context' : value) (s : state)
    (B2 : string) (arn response : value) :
  getitem_path event [IStr "ResourceProperties"; IStr "S3BucketName"] = inr (VStr B2) ->
  getitem_path event [IStr "ResourceProperties"; IStr "FunctionARN"] = inr arn ->
  s3_put {| meta := boto3_resource "s3"; bucket_name := VStr B2 |}
         (notification_configuration arn) = inr response ->
  store (snd (delete event' context'
                (snd (handler_create_update json_dumps s3_put s3_failed_put event context s))))
    !! B2 = Some (notification_configuration arn).
Proof.
  intros Hn Ha Hr.
  rewrite (handler_create_update_run _ _ _ _ _ _ _ _ Hn Ha ltac:(discriminate)).
  cbn [snd store delete].
  cbn. rewrite Hr. cbn. apply lookup_insert_eq.
Qed.

End LambdaFnMore.

(** ** Further concrete runs *)

Section MoreRuns.

Import Samples.

Lemma handler_prints_message_id_witness :
  EmailSender.handler repr_stub full_environ sdk_client_error ses_accept upload_event VNone
    EmailSender.initial =
  (inr VNone,
   {| EmailSender.calls :=
        [EmailSender.SendEmail {| EmailSender.service_name := "ses"; EmailSender.region_name := "eu-west-1" |}
           (EmailSender.request repr_stub "from@example.com" "to@example.com"
              (VStr "my-bucket") (VStr "photo.png"))];
      EmailSender.stdout := ["Email sent! Message ID:"; "0100-abc"] |}).
Proof.
  apply (handler_prints_message_id repr_stub sdk_client_error ses_accept full_environ
           upload_event VNone EmailSender.initial
           "from@example.com" "to@example.com" "eu-west-1"
           (VStr "photo.png") (VStr "my-bucket")
           (VDict {[ "MessageId" := VStr "0100-abc" ]}) (VStr "0100-abc"));
    vm_compute; reflexivity.
Defined.

Lemma handler_propagates_other_exception_witness :
  EmailSender.handler repr_stub full_environ sdk_client_error ses_unreachable upload_event VNone
    EmailSender.initial =
  (inl (OtherError "EndpointConnectionError"),
   {| EmailSender.calls :=
        [EmailSender.SendEmail {| EmailSender.service_name := "ses"; EmailSender.region_name := "eu-west-1" |}
           (EmailSender.request repr_stub "from@example.com" "to@example.com"
              (VStr "my-bucket") (VStr "photo.png"))];
      EmailSender.stdout := [] |}).
Proof.
  apply (handler_propagates_other_exception repr_stub sdk_client_error ses_unreachable full_environ
           upload_event VNone EmailSender.initial
           "from@example.com" "to@example.com" "eu-west-1"
           (VStr "photo.png") (VStr "my-bucket"));
    [vm_compute; reflexivity .. | intros r H; discriminate H].
Defined.

Lemma handler_raises_on_rejection_without_message_witness :
  EmailSender.handler repr_stub full_environ sdk_client_error ses_reject_bare upload_event VNone
    EmailSender.initial =
  (inl (KeyError (IStr "Message")),
   {| EmailSender.calls :=
        [EmailSender.SendEmail {| EmailSender.service_name := "ses"; EmailSender.region_name := "eu-west-1" |}
           (EmailSender.request repr_stub "from@example.com" "to@example.com"
              (VStr "my-bucket") (VStr "photo.png"))];
      EmailSender.stdout := [] |}).
Proof.
  apply (handler_raises_on_rejection_without_message repr_stub sdk_client_error ses_reject_bare
           full_environ upload_event VNone EmailSender.initial
           "from@example.com" "to@example.com" "eu-west-1"
           (VStr "photo.png") (VStr "my-bucket")
           (VDict {[ "Error" := VDict {[ "Code" := VStr "Throttling" ]} ]}));
    vm_compute; reflexivity.
Defined.

Lemma handler_raises_on_response_without_message_id_witness :
  EmailSender.handler repr_stub full_environ sdk_client_error ses_accept_bare upload_event VNone
    EmailSender.initial =
  (inl (KeyError (IStr "MessageId")),
   {| EmailSender.calls :=
        [EmailSender.SendEmail {| EmailSender.service_name := "ses"; EmailSender.region_name := "eu-west-1" |}
           (EmailSender.request repr_stub "from@example.com" "to@example.com"
              (VStr "my-bucket") (VStr "photo.png"))];
      EmailSender.stdout := ["Email sent! Message ID:"] |}).
Proof.
  apply (handler_raises_on_response_without_message_id repr_stub sdk_client_error ses_accept_bare
           full_environ upload_event VNone EmailSender.initial
           "from@example.com" "to@example.com" "eu-west-1"
           (VStr "photo.png") (VStr "my-bucket")
           (VDict {[ "ResponseMetadata" := VDict ∅ ]}));
    vm_compute; reflexivity.
Defined.

Lemma handler_reads_two_event_fields_witness :
  EmailSender.handler repr_stub full_environ sdk_client_error ses_accept
    upload_event VNone EmailSender.initial =
  EmailSender.handler repr_stub full_environ sdk_client_error ses_accept
    two_records_event (VStr "ctx") EmailSender.initial.
Proof.
  apply (handler_reads_two_event_fields repr_stub sdk_client_error ses_accept
           full_environ upload_event two_records_event VNone (VStr "ctx")
           EmailSender.initial);
    vm_compute; reflexivity.
Defined.

Lemma handler_reports_first_unset_variable_witness :
  EmailSender.handler repr_stub empty_environ sdk_client_error ses_accept upload_event VNone
    EmailSender.initial = (inl (KeyError (IStr "sender")), EmailSender.initial) /\
  EmailSender.handler repr_stub partial_environ sdk_client_error ses_accept upload_event VNone
    EmailSender.initial = (inl (KeyError (IStr "recipient")), EmailSender.initial).
Proof.
  split.
  - apply (handler_reports_first_unset_variable repr_stub sdk_client_error ses_accept empty_environ).
    left. split; [vm_compute|]; reflexivity.
  - apply (handler_reports_first_unset_variable repr_stub sdk_client_error ses_accept partial_environ).
    right; left. split; [eexists|split]; vm_compute; reflexivity.
Defined.

Lemma handler_raises_KeyError_without_Records_witness :
  EmailSender.handler repr_stub full_environ sdk_client_error ses_accept no_records_event VNone
    EmailSender.initial =
  (inl (KeyError (IStr "Records")), EmailSender.initial).
Proof.
  apply (handler_raises_KeyError_without_Records repr_stub sdk_client_error ses_accept full_environ
           {[ "detail-type" := VStr "Scheduled Event" ]} VNone EmailSender.initial);
    [eexists; vm_compute; reflexivity .. | vm_compute; reflexivity].
Defined.

Lemma handler_raises_IndexError_on_empty_Records_witness :
  EmailSender.handler repr_stub full_environ sdk_client_error ses_accept empty_records_event VNone
    EmailSender.initial = (inl IndexError, EmailSender.initial).
Proof.
  apply (handler_raises_IndexError_on_empty_Records repr_stub sdk_client_error ses_accept full_environ
           {[ "Records" := VList [] ]} VNone EmailSender.initial);
    [eexists; vm_compute; reflexivity .. | vm_compute; reflexivity].
Defined.

Lemma handler_raises_TypeError_on_non_dict_event_witness :
  EmailSender.handler repr_stub full_environ sdk_client_error ses_accept VNone VNone
    EmailSender.initial = (inl TypeError, EmailSender.initial).
Proof.
  apply (handler_raises_TypeError_on_non_dict_event repr_stub sdk_client_error ses_accept full_environ
           VNone VNone EmailSender.initial);
    [eexists; vm_compute; reflexivity .. | intros d H; discriminate H].
Defined.

Lemma create_update_fails_on_missing_property_witness :
  fst (LambdaFn.handler_create_update dumps_stub s3_accept s3_failed_put_none
         cfn_event_without_arn VNone registrar_state) =
    inl (KeyError (IStr "FunctionARN")) /\
  LambdaFn.calls (snd (LambdaFn.handler_create_update dumps_stub s3_accept s3_failed_put_none
         cfn_event_without_arn VNone registrar_state)) = [] /\
  LambdaFn.store (snd (LambdaFn.handler_create_update dumps_stub s3_accept s3_failed_put_none
         cfn_event_without_arn VNone registrar_state)) = old_store /\
  LambdaFn.log (snd (LambdaFn.handler_create_update dumps_stub s3_accept s3_failed_put_none
         cfn_event_without_arn VNone registrar_state)) =
    [(LambdaFn.INFO, "Creating or Updating")].
Proof.
  apply (create_update_fails_on_missing_property dumps_stub s3_accept s3_failed_put_none
           cfn_event_without_arn VNone registrar_state).
  right. split; [eexists|]; vm_compute; reflexivity.
Defined.

Lemma create_update_propagates_put_exception_witness :
  fst (LambdaFn.handler_create_update dumps_stub s3_reject s3_failed_put_none
         (cfn_event "Create") VNone registrar_state) =
    inl (ClientError (VDict {[ "Error" :=
           VDict (<[ "Code" := VStr "NoSuchBucket" ]>
                  {[ "Message" := VStr "The specified bucket does not exist" ]}) ]})) /\
  LambdaFn.calls (snd (LambdaFn.handler_create_update dumps_stub s3_reject s3_failed_put_none
         (cfn_event "Create") VNone registrar_state)) =
    LambdaFn.calls registrar_state ++
    [LambdaFn.Put {| LambdaFn.meta := LambdaFn.boto3_resource "s3";
                     LambdaFn.bucket_name := VStr "my-bucket" |}
       (LambdaFn.notification_configuration
          (VStr "arn:aws:lambda:eu-west-1:123456789012:function:notify"))] /\
  LambdaFn.log (snd (LambdaFn.handler_create_update dumps_stub s3_reject s3_failed_put_none
         (cfn_event "Create") VNone registrar_state)) =
    LambdaFn.log registrar_state ++ [(LambdaFn.INFO, "Creating or Updating")] /\
  LambdaFn.signals (snd (LambdaFn.handler_create_update dumps_stub s3_reject s3_failed_put_none
         (cfn_event "Create") VNone registrar_state)) =
    LambdaFn.signals registrar_state.
Proof.
  apply (create_update_propagates_put_exception dumps_stub s3_reject s3_failed_put_none
           (cfn_event "Create") VNone registrar_state "my-bucket"
           (VStr "arn:aws:lambda:eu-west-1:123456789012:function:notify"));
    vm_compute; reflexivity.
Defined.


Lemma delete_keeps_configuration_witness :
  LambdaFn.store
    (snd (LambdaFn.delete (cfn_event "Delete") VNone
            (snd (LambdaFn.handler_create_update dumps_stub s3_accept s3_failed_put_none
                    (cfn_event "Create") VNone registrar_state))))
    !! "my-bucket" =
  Some (LambdaFn.notification_configuration
          (VStr "arn:aws:lambda:eu-west-1:123456789012:function:notify")).
Proof.
  apply (delete_keeps_configuration dumps_stub s3_accept s3_failed_put_none
           (cfn_event "Create") (cfn_event "Delete") VNone VNone registrar_state
           "my-bucket"
           (VStr "arn:aws:lambda:eu-west-1:123456789012:function:notify")
           (VDict {[ "ResponseMetadata" := VDict {[ "HTTPStatusCode" := VInt 200 ]} ]}));
    vm_compute; reflexivity.
Defined.

End MoreRuns.
